(** * Glance operator charm: storage readiness and service configuration

    A shallow embedding of [src/charm.py]: the relation handler
    [GlanceStorageRelationHandler] (its [ready] property and its [context]
    method) and the catch-all event handler
    [GlanceOperatorCharm.configure_charm].

    The charm sits on two frameworks that are not part of the repository
    (the [ops] runtime and the [advanced_sunbeam_openstack] base classes).
    What the charm reads from them is data of the [Charm] record below; what
    it asks them to do is recorded as an [Event], and the two calls whose
    effect on the unit the properties need ([init_service] and the inherited
    [configure_charm]) are parameters of the development. *)

From stdpp Require Import base strings list gmap.

(** ** Data the charm observes *)

(** An attached Juju storage instance, [self.model.storages[name]]. *)
Record Storage : Type := {
  storage_index : nat;
  storage_location : string
}.

(** [ops.model] unit statuses. *)
Inductive Status : Type :=
| UnknownStatus
| ActiveStatus (message : string)
| WaitingStatus (message : string)
| MaintenanceStatus (message : string)
| BlockedStatus (message : string).

(** The lifecycle event a handler is invoked for. The charm hands it on to
    the inherited handler and never looks inside. *)
Inductive Hook : Type :=
| ConfigChanged
| RelationChanged (relation : string)
| StorageAttached (storage : string)
| PebbleReady (container : string)
| UpgradeCharm.

(** Everything [self] can read during one hook: the Juju model, the
    handler's constructor argument, and the answers of the base classes,
    which the charm only consults. *)
Record Charm : Type := {
  (** [self.model.get_relation('ceph')]: the relation id, or [None] *)
  ceph_relation : option nat;
  (** [self.model.storages['local-repository']] *)
  local_repository : list Storage;
  (** [self.app.name] *)
  app_name : string;
  (** [juju_storage_name] given to the handler's constructor *)
  juju_storage_name : string;
  (** [CephClientHandler.ready], what [super().ready] evaluates to *)
  parent_ready : bool;
  (** [CephClientHandler.context()], what [super().context()] returns *)
  parent_context : gmap string string;
  (** [self.ceph.key], the cephx key negotiated over the relation *)
  key : option string;
  (** [self.relation_handlers_ready()] *)
  relation_handlers_ready : bool;
  (** [self.get_named_pebble_handler("glance-api").pebble_ready] *)
  pebble_ready : bool;
  (** container names of [self.pebble_handlers], in order *)
  pebble_handlers : list string;
  (** [self.contexts()] *)
  contexts : list (string * gmap string string);
  (** exit status of a command run in the workload container *)
  exit_code : list string → Z
}.

(** Python truth value of an optional string: [None] and [''] are false. *)
Definition truthy (o : option string) : bool :=
  match o with
  | Some (String _ _) => true
  | Some EmptyString => false
  | None => false
  end.

(** ** What the charm changes *)

(** The part of the unit a hook can change: the status shown to the
    operator, the stored [bootstrapped] flag and the configuration files
    rendered into the workload container. *)
Record State : Type := {
  unit_status : Status;
  bootstrapped : bool;
  files : gmap string string
}.

Inductive Exception : Type :=
| ExecError (command : list string) (exit : Z).

(** Calls made on the collaborators, in the order they are made. *)
Inductive Event : Type :=
| Debug (message : string)
| Execute (command : list string) (exception_on_error : bool)
| InitService (ctxs : list (string * gmap string string))
| SuperConfigureCharm (event : Hook)
| StartService (container : string).

(** ** Statements with early return and exceptions *)

(** How a block of statements ends: it falls through with a value, it
    executes [return r], or it raises. *)
Inductive Outcome (R A : Type) : Type :=
| Normal (a : A)
| Returned (r : R)
| Raised (e : Exception).

Arguments Normal {R A} a.
Arguments Returned {R A} r.
Arguments Raised {R A} e.

(** A block inside a function returning [R]: from the unit state to an
    outcome, the new state and the events emitted. *)
Definition M (R A : Type) : Type := State → Outcome R A * State * list Event.

#[global] Instance M_ret {R} : MRet (M R) :=
  λ A a s, (Normal a, s, []).

#[global] Instance M_bind {R} : MBind (M R) :=
  λ A B f m s,
    match m s with
    | (Normal a, s1, t1) =>
        match f a s1 with
        | (o, s2, t2) => (o, s2, t1 ++ t2)
        end
    | (Returned r, s1, t1) => (Returned r, s1, t1)
    | (Raised e, s1, t1) => (Raised e, s1, t1)
    end.

(** [pass]: *)
Definition skip {R} : M R unit := mret ().

(** [return r] *)
Definition return_ {R A} (r : R) : M R A := λ s, (Returned r, s, []).

(** [raise e] *)
Definition raise {R A} (e : Exception) : M R A := λ s, (Raised e, s, []).

Definition emit {R} (e : Event) : M R unit := λ s, (Normal (), s, [e]).

Definition get {R} : M R State := λ s, (Normal s, s, []).

Definition modify {R} (f : State → State) : M R unit :=
  λ s, (Normal (), f s, []).

(** A function call: the body's [return r] is the call's value; a body that
    falls off its end returns [None], here [dflt]. *)
Definition call {R R'} (dflt : R) (body : M R unit) : M R' R :=
  λ s,
    match body s with
    | (Normal _, s1, t1) => (Normal dflt, s1, t1)
    | (Returned r, s1, t1) => (Normal r, s1, t1)
    | (Raised e, s1, t1) => (Raised e, s1, t1)
    end.

(** [for x in xs: body x] *)
Fixpoint for_each {R X} (xs : list X) (body : X → M R unit) : M R unit :=
  match xs with
  | [] => skip
  | x :: xs' => body x ;; for_each xs' body
  end.

(** [logger.debug(msg)] *)
Definition debug {R} (msg : string) : M R unit := emit (Debug msg).

(** ** The charm's queries (lines 173-187) *)

(** [has_local_storage]: [len(self.model.storages['local-repository']) > 0] *)
Definition has_local_storage (c : Charm) : bool :=
  bool_decide (0 < length (local_repository c)).

(** [has_ceph_relation]: [self.model.get_relation('ceph') is not None] *)
Definition has_ceph_relation (c : Charm) : bool :=
  match ceph_relation c with
  | Some _ => true
  | None => false
  end.

(** ** GlanceStorageRelationHandler (lines 24-82) *)

Definition ready_body (c : Charm) : M bool unit :=
  (if has_ceph_relation c then
     debug "ceph relation is connected, deferring to parent" ;;
     return_ (parent_ready c)
   else skip) ;;
  (if has_local_storage c then
     debug ("Storage " +:+ juju_storage_name c +:+ " is attached") ;;
     return_ true
   else skip) ;;
  debug "Ceph relation does not exist and no local storage is available." ;;
  return_ false.

(** The [ready] property. *)
Definition ready {R} (c : Charm) : M R bool := call false (ready_body c).

(** The [context] method. *)
Definition context (c : Charm) : gmap string string :=
  if has_ceph_relation c then parent_context c else ∅.

(** ** GlanceOperatorCharm.configure_charm (lines 189-233) *)

(** [str(x)] of an optional string inside an f-string. *)
Definition format_str (o : option string) : string :=
  match o with
  | Some k => k
  | None => "None"
  end.

Definition set_unit_status {R} (st : Status) : M R unit :=
  modify (λ s, {| unit_status := st;
                  bootstrapped := bootstrapped s;
                  files := files s |}).

(** [ph.execute(command, exception_on_error=...)]: the command runs in the
    workload container; with [exception_on_error] a non-zero exit raises.
    What it installs or writes there (packages, the keyring) is no part of
    [State]. *)
Definition execute {R} (c : Charm) (command : list string)
    (exception_on_error : bool) : M R unit :=
  emit (Execute command exception_on_error) ;;
  if exception_on_error && negb (exit_code c command =? 0)%Z
  then raise (ExecError command (exit_code c command))
  else skip.

(** [handler.start_service()]: the process supervisor's business. *)
Definition start_service {R} (container : string) : M R unit :=
  emit (StartService container).

(** The three commands of lines 212-225, for application [app] and key [k]. *)
Definition ceph_commands (app k : string) : list (list string) :=
  [ ["apt"; "update"];
    ["apt"; "install"; "-y"; "ceph-common"];
    ["ceph-authtool";
     "/etc/ceph/ceph.client." +:+ app +:+ ".keyring";
     "--create-keyring";
     "--name=client." +:+ app;
     "--add-key=" +:+ k] ].

Section Collaborators.

(** What the template renderer writes for a list of contexts: target path
    and rendered content. *)
Variable render : list (string * gmap string string) → gmap string string.

(** The effect of the inherited [configure_charm] on the unit. *)
Variable inherited : Hook → Charm → State → State.

(** The unit after the files for [ctxs] have been written: a rendered file
    replaces the one at its path, the other files stay. *)
Definition rendered (ctxs : list (string * gmap string string)) (s : State)
    : State :=
  {| unit_status := unit_status s;
     bootstrapped := bootstrapped s;
     files := render ctxs ∪ files s |}.

(** [ph.init_service(contexts)]: renders the container's configuration
    files. *)
Definition init_service {R} (ctxs : list (string * gmap string string))
    : M R unit :=
  emit (InitService ctxs) ;;
  modify (rendered ctxs).

(** [super().configure_charm(event)] *)
Definition super_configure_charm {R} (event : Hook) (c : Charm) : M R unit :=
  emit (SuperConfigureCharm event) ;;
  modify (inherited event c).

Definition configure_charm_body (c : Charm) (event : Hook) : M unit unit :=
  (if negb (relation_handlers_ready c) then
     debug "Deferring configuration, charm relations not ready" ;;
     return_ ()
   else skip) ;;
  (if has_ceph_relation c then
     if negb (truthy (key c)) then
       debug "Ceph key is not yet present, waiting." ;;
       return_ ()
     else skip
   else if has_local_storage c then
     debug "Local storage is configured, using that."
   else
     debug "Neither local storage nor ceph relation exists." ;;
     set_unit_status
       (BlockedStatus
          "Missing storage. Relate to Ceph or add local storage to continue.") ;;
     return_ ()) ;;
  (if pebble_ready c then
     (if has_ceph_relation c && truthy (key c) then
        debug "Setting up Ceph packages in images." ;;
        execute c ["apt"; "update"] true ;;
        execute c ["apt"; "install"; "-y"; "ceph-common"] true ;;
        execute c
          ["ceph-authtool";
           "/etc/ceph/ceph.client." +:+ app_name c +:+ ".keyring";
           "--create-keyring";
           "--name=client." +:+ app_name c;
           "--add-key=" +:+ format_str (key c)]
          true
      else
        debug "Using local storage") ;;
     init_service (contexts c)
   else skip) ;;
  super_configure_charm event c ;;
  s ← get ;
  if bootstrapped s then
    for_each (pebble_handlers c) start_service
  else skip.

Definition configure_charm {R} (c : Charm) (event : Hook) : M R unit :=
  call () (configure_charm_body c event).

(** Lines 231-233: the handlers that are started once the inherited handler
    has left the unit in state [s2]. *)
Definition started (c : Charm) (s2 : State) : list Event :=
  if bootstrapped s2 then map StartService (pebble_handlers c) else [].

(** Whether every command of [cmds] exits with status 0. *)
Definition all_ok (c : Charm) (cmds : list (list string)) : bool :=
  forallb (λ cmd, (exit_code c cmd =? 0)%Z) cmds.

(** The unit after line 203. *)
Definition blocked (s : State) : State :=
  {| unit_status :=
       BlockedStatus
         "Missing storage. Relate to Ceph or add local storage to continue.";
     bootstrapped := bootstrapped s;
     files := files s |}.

(** The unit state a call of [configure_charm] leaves behind, branch by
    branch. [state_of_configure] below proves that it is. *)
Definition final_state (c : Charm) (event : Hook) (s : State) : State :=
  if negb (relation_handlers_ready c) then s
  else if has_ceph_relation c then
    if negb (truthy (key c)) then s
    else if pebble_ready c then
      if all_ok c (ceph_commands (app_name c) (format_str (key c)))
      then inherited event c (rendered (contexts c) s)
      else s
    else inherited event c s
  else if has_local_storage c then
    inherited event c
      (if pebble_ready c then rendered (contexts c) s else s)
  else blocked s.

End Collaborators.

(** ** Reading a result *)

Definition outcome_of {R A} (r : Outcome R A * State * list Event)
    : Outcome R A := r.1.1.

Definition state_of {R A} (r : Outcome R A * State * list Event)
    : State := r.1.2.

Definition trace_of {R A} (r : Outcome R A * State * list Event)
    : list Event := r.2.

Definition is_debug (e : Event) : bool :=
  match e with
  | Debug _ => true
  | _ => false
  end.

(** The calls that act on a collaborator: everything but log records. *)
Definition actions (t : list Event) : list Event :=
  List.filter (λ e, negb (is_debug e)) t.

(** The same charm with another set of attached storage instances. *)
Definition with_local_repository (ss : list Storage) (c : Charm) : Charm :=
  {| ceph_relation := ceph_relation c;
     local_repository := ss;
     app_name := app_name c;
     juju_storage_name := juju_storage_name c;
     parent_ready := parent_ready c;
     parent_context := parent_context c;
     key := key c;
     relation_handlers_ready := relation_handlers_ready c;
     pebble_ready := pebble_ready c;
     pebble_handlers := pebble_handlers c;
     contexts := contexts c;
     exit_code := exit_code c |}.

(** ** The rest of GlanceOperatorCharm (lines 88-167) *)

(** Class attribute [ceph_conf]. *)
Definition ceph_conf : string := "/etc/ceph/ceph.conf".

(** The [service_conf], [service_user] and [service_group] properties. *)
Definition service_conf : string := "/etc/glance/glance-api.conf".
Definition service_user : string := "glance".
Definition service_group : string := "glance".

(** A [sunbeam_ctxts.ConfigContext] object: the class it was built from and
    the namespace it renders under. *)
Record ConfigContext : Type := {
  context_class : string;
  context_namespace : string
}.

(** A [sunbeam_core.ContainerConfigFile]: path, owner and group. *)
Record ContainerConfigFile : Type := {
  config_path : string;
  config_user : string;
  config_group : string
}.

(** The [config_contexts] property (lines 100-111). [inherited_contexts] is
    the list [super().config_contexts] hands out at this access. *)
Definition config_contexts_body (inherited_contexts : list ConfigContext)
    (c : Charm) : M (list ConfigContext) unit :=
  let contexts := inherited_contexts in
  contexts ←
    (if has_ceph_relation c then
       debug "Application has ceph relation" ;;
       let contexts :=
         contexts ++ [ {| context_class := "CephConfigurationContext";
                          context_namespace := "ceph_config" |} ] in
       let contexts :=
         contexts ++ [ {| context_class := "CinderCephConfigurationContext";
                          context_namespace := "cinder_ceph" |} ] in
       mret contexts
     else mret contexts) ;
  return_ contexts.

Definition config_contexts {R} (inherited_contexts : list ConfigContext)
    (c : Charm) : M R (list ConfigContext) :=
  call [] (config_contexts_body inherited_contexts c).

(** The [container_configs] property (lines 113-127). [inherited_configs] is
    the list [super().container_configs] hands out at this access. *)
Definition container_configs (inherited_configs : list ContainerConfigFile)
    (c : Charm) : list ContainerConfigFile :=
  let _cconfigs := inherited_configs in
  if has_ceph_relation c then
    _cconfigs ++ [ {| config_path := ceph_conf;
                      config_user := service_user;
                      config_group := service_group |} ]
  else _cconfigs.

(** The callback a relation handler is given. *)
Inductive Callback : Type :=
| ConfigureCharm.

(** A [GlanceStorageRelationHandler] as [__init__] (lines 33-45) leaves it:
    the arguments handed to the parent constructor and the storage name kept
    on the object. *)
Record GlanceStorageRelationHandler : Type := {
  handler_relation_name : string;
  handler_callback_f : Callback;
  handler_allow_ec_overwrites : bool;
  handler_app_name : option string;
  handler_juju_storage_name : option string
}.

(** A relation handler of the charm: one the base class set up, known here
    by its relation name, or the storage handler. *)
Inductive RelationHandler : Type :=
| BaseHandler (name : string)
| StorageHandler (h : GlanceStorageRelationHandler).

Definition relation_name (h : RelationHandler) : string :=
  match h with
  | BaseHandler name => name
  | StorageHandler h => handler_relation_name h
  end.

(** [get_relation_handlers] (lines 129-141): the list returned and the
    handler stored in [self.ceph]. *)
Definition get_relation_handlers (inherited_handlers : list RelationHandler)
    : list RelationHandler * GlanceStorageRelationHandler :=
  let handlers := inherited_handlers in
  let ceph :=
    {| handler_relation_name := "ceph";
       handler_callback_f := ConfigureCharm;
       handler_allow_ec_overwrites := true;
       handler_app_name := Some "rbd";
       handler_juju_storage_name := Some "local-repository" |} in
  (handlers ++ [StorageHandler ceph], ceph).

(** ** The guard of line 191 *)

(** The answer of one registered handler: a handler of the base class
    answers for itself ([base_ready], by relation name), the storage handler
    through its [ready] property. *)
Definition handler_is_ready (base_ready : string → bool) (c : Charm)
    (s : State) (h : RelationHandler) : bool :=
  match h with
  | BaseHandler name => base_ready name
  | StorageHandler _ =>
      match outcome_of (ready (R:=unit) c s) with
      | Normal b => b
      | _ => false
      end
  end.

(** Modelled from the spec: [relation_handlers_ready()] is a method of the
    base class, whose code is not in the repository. The orchestrator
    defers "if any declared relation has not completed its internal
    handshake", and the docstring of [ready] (lines 57-58) has its [False]
    keep the charm waiting: the answer is [True] only when every handler
    that [get_relation_handlers] returns is ready. *)
Definition all_handlers_ready (base_ready : string → bool)
    (inherited_handlers : list RelationHandler) (c : Charm) (s : State)
    : bool :=
  forallb (handler_is_ready base_ready c s)
    (get_relation_handlers inherited_handlers).1.

(** ** The ways through [configure_charm] *)

Section Paths.

Variable render : list (string * gmap string string) → gmap string string.
Variable inherited : Hook → Charm → State → State.

(** One constructor for each way a call of [configure_charm] can go, with
    the conditions it is taken under and the result it gives.
    [configure_charm_path] proves that every call goes one of them. *)
Inductive configure_path (c : Charm) (event : Hook) (s : State)
    : Outcome unit unit * State * list Event → Prop :=
| path_deferred :
    relation_handlers_ready c = false →
    configure_path c event s
      (Normal (), s,
       [Debug "Deferring configuration, charm relations not ready"])
| path_waiting :
    relation_handlers_ready c = true →
    has_ceph_relation c = true →
    truthy (key c) = false →
    configure_path c event s
      (Normal (), s, [Debug "Ceph key is not yet present, waiting."])
| path_blocked :
    relation_handlers_ready c = true →
    has_ceph_relation c = false →
    has_local_storage c = false →
    configure_path c event s
      (Normal (), blocked s,
       [Debug "Neither local storage nor ceph relation exists."])
| path_local s2 :
    relation_handlers_ready c = true →
    has_ceph_relation c = false →
    has_local_storage c = true →
    s2 = inherited event c
           (if pebble_ready c then rendered render (contexts c) s else s) →
    configure_path c event s
      (Normal (), s2,
       Debug "Local storage is configured, using that."
       :: (if pebble_ready c
           then [Debug "Using local storage"; InitService (contexts c)]
           else [])
       ++ SuperConfigureCharm event :: started c s2)
| path_ceph_no_pebble k s2 :
    relation_handlers_ready c = true →
    has_ceph_relation c = true →
    key c = Some k → k ≠ "" →
    pebble_ready c = false →
    s2 = inherited event c s →
    configure_path c event s
      (Normal (), s2, SuperConfigureCharm event :: started c s2)
| path_ceph_ok k s2 :
    relation_handlers_ready c = true →
    has_ceph_relation c = true →
    key c = Some k → k ≠ "" →
    pebble_ready c = true →
    (∀ cmd, cmd ∈ ceph_commands (app_name c) k → exit_code c cmd = 0%Z) →
    s2 = inherited event c (rendered render (contexts c) s) →
    configure_path c event s
      (Normal (), s2,
       Debug "Setting up Ceph packages in images."
       :: map (λ cmd, Execute cmd true) (ceph_commands (app_name c) k)
       ++ InitService (contexts c) :: SuperConfigureCharm event
       :: started c s2)
| path_ceph_failed k i cmd :
    relation_handlers_ready c = true →
    has_ceph_relation c = true →
    key c = Some k → k ≠ "" →
    pebble_ready c = true →
    ceph_commands (app_name c) k !! i = Some cmd →
    exit_code c cmd ≠ 0%Z →
    configure_path c event s
      (Raised (ExecError cmd (exit_code c cmd)), s,
       Debug "Setting up Ceph packages in images."
       :: map (λ cmd, Execute cmd true)
            (take (S i) (ceph_commands (app_name c) k))).

End Paths.

(** Events before the inherited handler is called: log records, commands
    and the rendering of the configuration. *)
Definition is_provisioning (e : Event) : bool :=
  match e with
  | Debug _ | Execute _ _ | InitService _ => true
  | SuperConfigureCharm _ | StartService _ => false
  end.

(** ** Sample units *)

Definition sample_charm (rel : option nat) (ss : list Storage)
    (pready : bool) (k : option string) (hready pebble : bool)
    (exits : list string → Z) : Charm :=
  {| ceph_relation := rel;
     local_repository := ss;
     app_name := "glance";
     juju_storage_name := "local-repository";
     parent_ready := pready;
     parent_context :=
       match k with
       | Some v => {[ "auth" := "cephx"; "key" := v ]}
       | None => ∅
       end;
     key := k;
     relation_handlers_ready := hready;
     pebble_ready := pebble;
     pebble_handlers := ["glance-api"];
     contexts := [("options", {[ "debug" := "False" ]})];
     exit_code := exits |}.

Definition images_volume : Storage :=
  {| storage_index := 0; storage_location := "/var/lib/glance/images" |}.

Definition all_succeed : list string → Z := λ _, 0%Z.

(** [apt install] fails, the other commands succeed. *)
Definition install_fails : list string → Z :=
  λ cmd, if decide (cmd = ["apt"; "install"; "-y"; "ceph-common"])
         then 100%Z else 0%Z.

(** Related to ceph, key received, volume attached as well. *)
Definition charm_ceph_ready : Charm :=
  sample_charm (Some 7) [images_volume] true (Some "AQCvCbtToC6MDhAATtuT70Sl")
    true true all_succeed.

(** The same unit with a mirror that refuses the package. *)
Definition charm_ceph_install_fails : Charm :=
  sample_charm (Some 7) [images_volume] true (Some "AQCvCbtToC6MDhAATtuT70Sl")
    true true install_fails.

(** Related to ceph, no key yet, volume attached. *)
Definition charm_ceph_waiting : Charm :=
  sample_charm (Some 7) [images_volume] false None true true all_succeed.

(** No ceph relation, one volume attached. *)
Definition charm_local : Charm :=
  sample_charm None [images_volume] false None true true all_succeed.

(** The same before the workload container is up. *)
Definition charm_local_no_pebble : Charm :=
  sample_charm None [images_volume] false None true false all_succeed.

(** Neither ceph relation nor volume; the other relations are ready. *)
Definition charm_bare : Charm :=
  sample_charm None [] false None true true all_succeed.

(** Neither ceph relation nor volume; some relation is not ready. *)
Definition charm_bare_unsettled : Charm :=
  sample_charm None [] false None false true all_succeed.

Definition unit_fresh : State :=
  {| unit_status := MaintenanceStatus "installing charm software";
     bootstrapped := false;
     files := ∅ |}.

Definition unit_running : State :=
  {| unit_status := ActiveStatus "";
     bootstrapped := true;
     files := {[ "/etc/glance/glance-api.conf" := "[DEFAULT]" ]} |}.

(** A renderer that writes the service configuration file. *)
Definition render_sample (ctxs : list (string * gmap string string))
    : gmap string string :=
  {[ "/etc/glance/glance-api.conf" := "[DEFAULT]" ]}.

(** An inherited handler that marks the unit bootstrapped and active. *)
Definition inherited_sample (event : Hook) (c : Charm) (s : State) : State :=
  {| unit_status := ActiveStatus "";
     bootstrapped := true;
     files := files s |}.

(** What a base class might list: the charm's option context and the
    service configuration file. *)
Definition base_contexts : list ConfigContext :=
  [ {| context_class := "CharmConfigContext";
       context_namespace := "options" |} ].

Definition base_configs : list ContainerConfigFile :=
  [ {| config_path := service_conf;
       config_user := service_user;
       config_group := service_group |} ].

(** Handlers a base class might register, all of them ready. *)
Definition base_handlers : list RelationHandler :=
  [BaseHandler "shared-db"; BaseHandler "ingress";
   BaseHandler "identity-service"].

Definition base_handlers_ready : string → bool := λ _, true.

(** ** Basic facts *)

Lemma truthy_of_Some (k : string) : k ≠ "" → truthy (Some k) = true.
Proof. destruct k; [congruence | reflexivity]. Qed.

Lemma has_local_storage_true (c : Charm) :
  has_local_storage c = true ↔ 0 < length (local_repository c).
Proof. unfold has_local_storage. apply bool_decide_eq_true. Qed.

Lemma has_local_storage_false (c : Charm) :
  has_local_storage c = false ↔ length (local_repository c) = 0.
Proof.
  unfold has_local_storage. rewrite bool_decide_eq_false. lia.
Qed.

Lemma execute_ok {R} (c : Charm) (cmd : list string) (s : State) :
  exit_code c cmd = 0%Z →
  execute (R:=R) c cmd true s = (Normal (), s, [Execute cmd true]).
Proof.
  intros H. unfold execute, mbind, M_bind, emit, skip, mret, M_ret.
  rewrite H. reflexivity.
Qed.

Lemma execute_fail {R} (c : Charm) (cmd : list string) (s : State) :
  exit_code c cmd ≠ 0%Z →
  execute (R:=R) c cmd true s
  = (Raised (ExecError cmd (exit_code c cmd)), s, [Execute cmd true]).
Proof.
  intros H. unfold execute, mbind, M_bind, emit, raise.
  apply Z.eqb_neq in H. rewrite H. reflexivity.
Qed.

Lemma for_each_start_service {R} (hs : list string) (s : State) :
  for_each (R:=R) hs start_service s = (Normal (), s, map StartService hs).
Proof.
  revert s. induction hs as [|h hs IH]; intros s; [reflexivity|].
  simpl. unfold mbind, M_bind. simpl. rewrite IH. reflexivity.
Qed.

Section Properties.

Variable render : list (string * gmap string string) → gmap string string.
Variable inherited : Hook → Charm → State → State.

Local Abbreviation configure := (configure_charm (R:=unit) render inherited).

(** Lines 191-193: nothing happens while the relation handlers are not
    ready. *)
Lemma configure_deferred c event s :
  relation_handlers_ready c = false →
  configure c event s
  = (Normal (), s,
     [Debug "Deferring configuration, charm relations not ready"]).
Proof.
  intros H. unfold configure_charm, call, configure_charm_body.
  rewrite H. reflexivity.
Qed.

(** Lines 195-198: with a ceph relation and no key yet, nothing happens. *)
Lemma configure_waits_for_key c event s :
  relation_handlers_ready c = true →
  has_ceph_relation c = true →
  truthy (key c) = false →
  configure c event s
  = (Normal (), s, [Debug "Ceph key is not yet present, waiting."]).
Proof.
  intros H1 H2 H3. unfold configure_charm, call, configure_charm_body.
  rewrite H1, H2, H3. reflexivity.
Qed.

(** Lines 201-206. *)
Lemma configure_blocked c event s :
  relation_handlers_ready c = true →
  has_ceph_relation c = false →
  has_local_storage c = false →
  configure c event s
  = (Normal (),
     {| unit_status :=
          BlockedStatus
            "Missing storage. Relate to Ceph or add local storage to continue.";
        bootstrapped := bootstrapped s;
        files := files s |},
     [Debug "Neither local storage nor ceph relation exists."]).
Proof.
  intros H1 H2 H3. unfold configure_charm, call, configure_charm_body.
  rewrite H1, H2, H3. reflexivity.
Qed.

Ltac run_blocks :=
  unfold mbind, M_bind, skip, mret, M_ret, debug, emit, return_, raise,
    init_service, super_configure_charm, set_unit_status, modify, get;
  simpl.

Ltac run_start :=
  unfold started;
  match goal with
  | |- context [bootstrapped (inherited ?e ?c ?s)] =>
      destruct (bootstrapped (inherited e c s)) eqn:?
  end;
  rewrite ?for_each_start_service; simpl.

(** Lines 199-200 and 208-233 with local storage. *)
Lemma configure_local c event s :
  relation_handlers_ready c = true →
  has_ceph_relation c = false →
  has_local_storage c = true →
  let s1 := if pebble_ready c then rendered render (contexts c) s else s in
  let s2 := inherited event c s1 in
  configure c event s
  = (Normal (), s2,
     Debug "Local storage is configured, using that."
     :: (if pebble_ready c
         then [Debug "Using local storage"; InitService (contexts c)]
         else [])
     ++ SuperConfigureCharm event :: started c s2).
Proof.
  intros H1 H2 H3. unfold configure_charm, call, configure_charm_body.
  rewrite H1, H2, H3.
  destruct (pebble_ready c); run_blocks; run_start; reflexivity.
Qed.

(** Lines 208-233 with a ceph key while the container is not up yet. *)
Lemma configure_networked_no_pebble c event s :
  relation_handlers_ready c = true →
  has_ceph_relation c = true →
  truthy (key c) = true →
  pebble_ready c = false →
  let s2 := inherited event c s in
  configure c event s
  = (Normal (), s2, SuperConfigureCharm event :: started c s2).
Proof.
  intros H1 H2 H3 H4. unfold configure_charm, call, configure_charm_body.
  rewrite H1, H2, H3, H4. run_blocks; run_start; reflexivity.
Qed.

(** Lines 208-233 with a ceph key: the three commands succeed. *)
Lemma configure_networked_ok c event s k :
  relation_handlers_ready c = true →
  has_ceph_relation c = true →
  key c = Some k → k ≠ "" →
  pebble_ready c = true →
  (∀ cmd, cmd ∈ ceph_commands (app_name c) k → exit_code c cmd = 0%Z) →
  let s2 := inherited event c (rendered render (contexts c) s) in
  configure c event s
  = (Normal (), s2,
     Debug "Setting up Ceph packages in images."
     :: map (λ cmd, Execute cmd true) (ceph_commands (app_name c) k)
     ++ InitService (contexts c) :: SuperConfigureCharm event :: started c s2).
Proof.
  intros H1 H2 Hk Hne H4 Hall.
  assert (Ht : truthy (key c) = true) by (rewrite Hk; by apply truthy_of_Some).
  unfold configure_charm, call, configure_charm_body.
  rewrite H1, H2, Ht, H4, Hk.
  change (format_str (Some k)) with k.
  unfold mbind, M_bind, debug; simpl.
  rewrite !execute_ok by (apply Hall; unfold ceph_commands; by repeat constructor).
  run_blocks; run_start; reflexivity.
Qed.

(** Lines 208-225: the first command that exits non-zero ends the call. *)
Lemma configure_networked_fail c event s k i cmd :
  relation_handlers_ready c = true →
  has_ceph_relation c = true →
  key c = Some k → k ≠ "" →
  pebble_ready c = true →
  ceph_commands (app_name c) k !! i = Some cmd →
  exit_code c cmd ≠ 0%Z →
  (∀ j cmd', j < i → ceph_commands (app_name c) k !! j = Some cmd' →
             exit_code c cmd' = 0%Z) →
  configure c event s
  = (Raised (ExecError cmd (exit_code c cmd)), s,
     Debug "Setting up Ceph packages in images."
     :: map (λ cmd, Execute cmd true)
          (take (S i) (ceph_commands (app_name c) k))).
Proof.
  intros H1 H2 Hk Hne H4 Hi Hfail Hbefore.
  assert (Ht : truthy (key c) = true) by (rewrite Hk; by apply truthy_of_Some).
  unfold configure_charm, call, configure_charm_body.
  rewrite H1, H2, Ht, H4, Hk.
  change (format_str (Some k)) with k.
  unfold mbind, M_bind, debug; simpl.
  destruct i as [|[|[|i]]]; simpl in Hi; try discriminate;
    injection Hi as <-.
  - rewrite execute_fail by assumption. reflexivity.
  - rewrite (execute_ok c ["apt"; "update"])
      by (apply (Hbefore 0); [lia | reflexivity]).
    rewrite execute_fail by assumption. reflexivity.
  - rewrite (execute_ok c ["apt"; "update"])
      by (apply (Hbefore 0); [lia | reflexivity]).
    rewrite (execute_ok c ["apt"; "install"; "-y"; "ceph-common"])
      by (apply (Hbefore 1); [lia | reflexivity]).
    rewrite execute_fail by assumption. reflexivity.
Qed.

Ltac configure_cases c :=
  unfold configure_charm, call, configure_charm_body, execute;
  destruct (relation_handlers_ready c), (has_ceph_relation c),
    (truthy (key c)), (has_local_storage c), (pebble_ready c);
  run_blocks;
  repeat match goal with
    | |- context [(exit_code c ?cmd =? 0)%Z] =>
        destruct (exit_code c cmd =? 0)%Z eqn:?; simpl
    end.

Lemma state_of_configure c event s :
  state_of (configure c event s) = final_state render inherited c event s.
Proof.
  unfold state_of, final_state, all_ok, ceph_commands, blocked.
  configure_cases c; try reflexivity; run_start; reflexivity.
Qed.

Lemma start_needs_bootstrapped c event s h :
  StartService h ∈ trace_of (configure c event s) →
  bootstrapped (state_of (configure c event s)) = true.
Proof.
  unfold state_of, trace_of.
  configure_cases c; try run_start; intros Hin; try assumption;
    repeat (apply elem_of_cons in Hin as [Hin|Hin]; [discriminate|]);
    by apply elem_of_nil in Hin.
Qed.

(** Rendering again over files that already hold the rendered contents
    changes nothing. *)
Lemma rendered_absorbed ctxs s :
  (∀ p, is_Some (render ctxs !! p) → files s !! p = render ctxs !! p) →
  rendered render ctxs s = s.
Proof.
  intros H. destruct s as [st b f]. unfold rendered. simpl in *. f_equal.
  apply map_eq. intros p. rewrite lookup_union.
  destruct (render ctxs !! p) as [v|] eqn:E.
  - rewrite (H p) by (rewrite E; eauto). rewrite E. reflexivity.
  - destruct (f !! p); reflexivity.
Qed.

(** *** [ready] on its three return statements *)

Lemma ready_with_ceph c s :
  has_ceph_relation c = true →
  ready (R:=unit) c s
  = (Normal (parent_ready c), s,
     [Debug "ceph relation is connected, deferring to parent"]).
Proof.
  intros H. unfold ready, call, ready_body. rewrite H. reflexivity.
Qed.

Lemma ready_with_local_storage c s :
  has_ceph_relation c = false →
  has_local_storage c = true →
  ready (R:=unit) c s
  = (Normal true, s,
     [Debug ("Storage " +:+ juju_storage_name c +:+ " is attached")]).
Proof.
  intros H1 H2. unfold ready, call, ready_body. rewrite H1, H2. reflexivity.
Qed.

Lemma ready_without_backend c s :
  has_ceph_relation c = false →
  has_local_storage c = false →
  ready (R:=unit) c s
  = (Normal false, s,
     [Debug "Ceph relation does not exist and no local storage is available."]).
Proof.
  intros H1 H2. unfold ready, call, ready_body. rewrite H1, H2. reflexivity.
Qed.

(** ** The properties *)

(** C1. While the ceph relation is present and its own check has not passed,
    readiness is refused whatever local storage is attached: [ready] returns
    [False] on the branch that defers to the ceph handler (never [True]
    through the local-storage branch), and [configure_charm], finding no
    key on the relation, returns without touching the unit. *)
Theorem ready_defers_to_unready_ceph (c : Charm) (s : State) :
  has_ceph_relation c = true →
  (parent_ready c = false →
   ∀ ss,
     ready (R:=unit) (with_local_repository ss c) s
     = (Normal false, s,
        [Debug "ceph relation is connected, deferring to parent"]))
  ∧ (truthy (key c) = false →
     ∀ ss event,
       configure (with_local_repository ss c) event s
       = (Normal (), s,
          [Debug (if relation_handlers_ready c
                  then "Ceph key is not yet present, waiting."
                  else "Deferring configuration, charm relations not ready")])).
Proof.
  intros Hceph. split.
  - intros Hp ss. rewrite ready_with_ceph by exact Hceph. simpl.
    rewrite Hp. reflexivity.
  - intros Hk ss event.
    destruct (relation_handlers_ready c) eqn:Hr.
    + apply configure_waits_for_key; assumption.
    + apply configure_deferred; assumption.
Qed.

(** C3. With the ceph relation present and its check passed, [ready] is
    [True] on the ceph branch whatever local storage is attached, and the
    key [configure_charm] writes into the keyring is the key of that
    relation. *)
Theorem ready_with_ceph_uses_relation_key (c : Charm) (s : State) :
  has_ceph_relation c = true →
  parent_ready c = true →
  (∀ ss,
     ready (R:=unit) (with_local_repository ss c) s
     = (Normal true, s,
        [Debug "ceph relation is connected, deferring to parent"]))
  ∧ (∀ k ss event,
       key c = Some k → k ≠ "" →
       relation_handlers_ready c = true →
       pebble_ready c = true →
       (∀ cmd, cmd ∈ ceph_commands (app_name c) k → exit_code c cmd = 0%Z) →
       let t := trace_of (configure (with_local_repository ss c) event s) in
       Execute
         ["ceph-authtool";
          "/etc/ceph/ceph.client." +:+ app_name c +:+ ".keyring";
          "--create-keyring";
          "--name=client." +:+ app_name c;
          "--add-key=" +:+ k] true ∈ t
       ∧ (Debug "Local storage is configured, using that." ∉ t)
       ∧ (Debug "Using local storage" ∉ t)).
Proof.
  intros Hceph Hp. split.
  - intros ss. rewrite ready_with_ceph by exact Hceph. simpl.
    rewrite Hp. reflexivity.
  - intros k ss event Hk Hne Hr Hpb Hall t. subst t.
    rewrite (configure_networked_ok _ event s k) by assumption.
    unfold trace_of, ceph_commands, started. simpl.
    split; [by repeat constructor|].
    split; intros Hin;
      repeat (apply elem_of_cons in Hin as [Hin|Hin]; [discriminate|]);
      destruct (bootstrapped _);
      try (apply list_elem_of_fmap in Hin as (? & ? & _); discriminate);
      by apply elem_of_nil in Hin.
Qed.

(** C4. Without a ceph relation, [ready] is [True] exactly when at least
    one [local-repository] storage instance is attached; with none it is
    [False], on the branch that reports that no storage backend is there. *)
Theorem ready_without_ceph_iff_local_storage (c : Charm) (s : State) :
  has_ceph_relation c = false →
  (outcome_of (ready (R:=unit) c s) = Normal true
   ↔ 0 < length (local_repository c))
  ∧ (0 < length (local_repository c) →
     ready (R:=unit) c s
     = (Normal true, s,
        [Debug ("Storage " +:+ juju_storage_name c +:+ " is attached")]))
  ∧ (length (local_repository c) = 0 →
     ready (R:=unit) c s
     = (Normal false, s,
        [Debug
           "Ceph relation does not exist and no local storage is available."])).
Proof.
  intros Hceph. split; [|split].
  - destruct (has_local_storage c) eqn:Hl.
    + rewrite ready_with_local_storage by assumption.
      apply has_local_storage_true in Hl. by split.
    + rewrite ready_without_backend by assumption.
      apply has_local_storage_false in Hl. unfold outcome_of. simpl.
      split; [discriminate | lia].
  - intros Hl. apply ready_with_local_storage; [assumption|].
    by apply has_local_storage_true.
  - intros Hl. apply ready_without_backend; [assumption|].
    by apply has_local_storage_false.
Qed.

(** C8. While the relation handlers are not all ready, [configure_charm]
    returns at once: the status, the bootstrapped flag and the files are
    what they were, and nothing is asked of any collaborator. *)
Theorem configure_charm_deferred_is_noop (c : Charm) (event : Hook) (s : State) :
  relation_handlers_ready c = false →
  let r := configure c event s in
  outcome_of r = Normal ()
  ∧ state_of r = s
  ∧ actions (trace_of r) = []
  ∧ trace_of r = [Debug "Deferring configuration, charm relations not ready"].
Proof.
  intros H r. subst r. rewrite configure_deferred by assumption.
  repeat split.
Qed.

(** C6. With the relation handlers ready and the container up: on the ceph
    backend [configure_charm] runs [apt update], [apt install -y
    ceph-common] and [ceph-authtool ... --add-key=<key>], in this order and
    nothing else before [init_service], each with [exception_on_error=True];
    the first of them to exit non-zero raises, and the call ends there with
    the unit as it was. On local storage no command is run. *)
Theorem ceph_provisioning_commands (c : Charm) (event : Hook) (s : State) :
  relation_handlers_ready c = true →
  pebble_ready c = true →
  let r := configure c event s in
  let s2 := inherited event c (rendered render (contexts c) s) in
  let after :=
    InitService (contexts c) :: SuperConfigureCharm event
    :: (if bootstrapped s2 then map StartService (pebble_handlers c) else [])
  in
  (∀ k, has_ceph_relation c = true → key c = Some k → k ≠ "" →
     let cmds :=
       [ ["apt"; "update"];
         ["apt"; "install"; "-y"; "ceph-common"];
         ["ceph-authtool";
          "/etc/ceph/ceph.client." +:+ app_name c +:+ ".keyring";
          "--create-keyring";
          "--name=client." +:+ app_name c;
          "--add-key=" +:+ k] ] in
     ((∀ cmd, cmd ∈ cmds → exit_code c cmd = 0%Z) →
      outcome_of r = Normal ()
      ∧ state_of r = s2
      ∧ actions (trace_of r) = map (λ cmd, Execute cmd true) cmds ++ after)
     ∧ (∀ i cmd,
          cmds !! i = Some cmd →
          exit_code c cmd ≠ 0%Z →
          (∀ j cmd', j < i → cmds !! j = Some cmd' → exit_code c cmd' = 0%Z) →
          outcome_of r = Raised (ExecError cmd (exit_code c cmd))
          ∧ state_of r = s
          ∧ actions (trace_of r)
            = map (λ cmd, Execute cmd true) (take (S i) cmds)))
  ∧ (has_ceph_relation c = false → 0 < length (local_repository c) →
     outcome_of r = Normal ()
     ∧ state_of r = s2
     ∧ actions (trace_of r) = after).
Proof.
  intros Hr Hpb r s2 after. split.
  - intros k Hceph Hk Hne cmds. split.
    + intros Hall. subst r.
      rewrite (configure_networked_ok c event s k) by assumption.
      repeat split.
      unfold trace_of, actions, started, after, s2, cmds, ceph_commands. simpl.
      repeat f_equal.
      destruct (bootstrapped _); [|reflexivity].
      induction (pebble_handlers c) as [|h hs IH]; [reflexivity|].
      simpl. by rewrite IH.
    + intros i cmd Hi Hfail Hbefore. subst r.
      rewrite (configure_networked_fail c event s k i cmd) by assumption.
      repeat split.
      destruct i as [|[|[|i]]]; simpl in Hi; try discriminate; reflexivity.
  - intros Hceph Hl. subst r.
    rewrite configure_local
      by (try assumption; by apply has_local_storage_true).
    rewrite Hpb. repeat split.
    unfold trace_of, actions, started, after, s2. simpl. repeat f_equal.
    destruct (bootstrapped _); [|reflexivity].
    induction (pebble_handlers c) as [|h hs IH]; [reflexivity|].
    simpl. by rewrite IH.
Qed.

Lemma actions_start_service (hs : list string) :
  actions (map StartService hs) = map StartService hs.
Proof.
  induction hs as [|h hs IH]; [reflexivity|]. simpl. by rewrite IH.
Qed.

Lemma rendered_after_inherited c e s :
  (∀ e s' p,
     is_Some (render (contexts c) !! p) →
     files (inherited e c s') !! p = files s' !! p) →
  rendered render (contexts c) (inherited e c (rendered render (contexts c) s))
  = inherited e c (rendered render (contexts c) s).
Proof.
  intros Hkeep. apply rendered_absorbed. intros p [v Hp].
  rewrite Hkeep by (rewrite Hp; eauto).
  unfold rendered. simpl. rewrite lookup_union, Hp.
  destruct (files s !! p); reflexivity.
Qed.

Lemma final_state_stable c e1 e2 s :
  (∀ ea eb s', inherited eb c (inherited ea c s') = inherited ea c s') →
  (∀ e s' p,
     is_Some (render (contexts c) !! p) →
     files (inherited e c s') !! p = files s' !! p) →
  final_state render inherited c e2 (final_state render inherited c e1 s) = final_state render inherited c e1 s.
Proof.
  intros Hidem Hkeep. unfold final_state.
  destruct (relation_handlers_ready c), (has_ceph_relation c),
    (truthy (key c)), (has_local_storage c), (pebble_ready c),
    (all_ok c (ceph_commands (app_name c) (format_str (key c)))); simpl;
    rewrite ?rendered_after_inherited by exact Hkeep;
    rewrite ?Hidem; reflexivity.
Qed.

(** C7. Nothing having changed around the unit, a second [configure_charm]
    leaves the status, the rendered files and the bootstrapped flag as the
    first call left them. The two collaborators whose code is elsewhere are
    taken to behave as their contracts say: the inherited handler, run on its
    own result, changes nothing, and it leaves alone the files that
    [init_service] renders. *)
Theorem configure_charm_idempotent (c : Charm) (e1 e2 : Hook) (s : State) :
  (∀ ea eb s', inherited eb c (inherited ea c s') = inherited ea c s') →
  (∀ e s' p,
     is_Some (render (contexts c) !! p) →
     files (inherited e c s') !! p = files s' !! p) →
  let s1 := state_of (configure c e1 s) in
  let s2 := state_of (configure c e2 s1) in
  unit_status s2 = unit_status s1
  ∧ files s2 = files s1
  ∧ bootstrapped s2 = bootstrapped s1.
Proof.
  intros Hidem Hkeep s1 s2. subst s1 s2.
  rewrite !state_of_configure.
  rewrite final_state_stable by assumption. repeat split.
Qed.

(** C9. [configure_charm] never writes the bootstrapped flag: the flag it
    leaves is the one it found, or the one the inherited handler left
    starting from the flag it found. So a flag that is set stays set as long
    as the inherited handler does not clear it. The flag is read once, after
    the inherited handler, and [start_service] is called only if it is
    set. *)
Theorem bootstrapped_flag_monotonic (c : Charm) (event : Hook) (s : State) :
  let r := configure c event s in
  (bootstrapped (state_of r) = bootstrapped s
   ∨ ∃ s1, bootstrapped s1 = bootstrapped s
           ∧ state_of r = inherited event c s1)
  ∧ ((∀ s1, bootstrapped s1 = true →
            bootstrapped (inherited event c s1) = true) →
     bootstrapped s = true →
     bootstrapped (state_of r) = true)
  ∧ (∀ h, StartService h ∈ trace_of r → bootstrapped (state_of r) = true).
Proof.
  intros r. subst r.
  assert (Hwho :
    bootstrapped (final_state render inherited c event s) = bootstrapped s
    ∨ ∃ s1, bootstrapped s1 = bootstrapped s
            ∧ final_state render inherited c event s = inherited event c s1).
  { unfold final_state.
    destruct (relation_handlers_ready c), (has_ceph_relation c),
      (truthy (key c)), (has_local_storage c), (pebble_ready c),
      (all_ok c (ceph_commands (app_name c) (format_str (key c))));
      simpl;
      first [ by left | right; eexists; split; [|reflexivity]; reflexivity ]. }
  rewrite state_of_configure. split; [exact Hwho|]. split.
  - intros Hmono Hs. destruct Hwho as [->|(s1 & Hs1 & ->)]; [exact Hs|].
    apply Hmono. congruence.
  - intros h Hin. rewrite <- state_of_configure.
    by apply (start_needs_bootstrapped c event s h).
Qed.

(** C10. Storage being ready and the relation handlers too, but the
    [glance-api] container not yet up: no command is run and [init_service]
    is not called, yet the inherited handler runs, and after it every pebble
    handler is started if the bootstrapped flag is set. *)
Theorem configure_without_pebble_still_configures
    (c : Charm) (event : Hook) (s : State) :
  relation_handlers_ready c = true →
  pebble_ready c = false →
  (has_ceph_relation c = true ∧ truthy (key c) = true)
  ∨ (has_ceph_relation c = false ∧ 0 < length (local_repository c)) →
  let r := configure c event s in
  let s2 := inherited event c s in
  outcome_of r = Normal ()
  ∧ state_of r = s2
  ∧ actions (trace_of r)
    = SuperConfigureCharm event
      :: (if bootstrapped s2
          then map StartService (pebble_handlers c)
          else []).
Proof.
  intros Hr Hpb Hgate r s2. subst r s2.
  destruct Hgate as [[Hceph Hk]|[Hceph Hl]].
  - rewrite configure_networked_no_pebble by assumption.
    repeat split. unfold trace_of, actions, started. simpl. f_equal.
    destruct (bootstrapped _); [apply actions_start_service | reflexivity].
  - rewrite configure_local
      by (try assumption; by apply has_local_storage_true).
    rewrite Hpb. repeat split.
    unfold trace_of, actions, started. simpl. f_equal.
    destruct (bootstrapped _); [apply actions_start_service | reflexivity].
Qed.

End Properties.

(** C5. [context] hands out the ceph handler's context when the ceph
    relation is the backend in use and the empty dict otherwise, hence
    whenever local storage is the backend; a non-empty export only ever
    comes with the ceph relation. *)
Theorem context_exports_by_backend (c : Charm) :
  (has_ceph_relation c = true → context c = parent_context c)
  ∧ (has_ceph_relation c = false → context c = ∅)
  ∧ (context c ≠ ∅ → has_ceph_relation c = true).
Proof.
  unfold context. destruct (has_ceph_relation c); repeat split; try done.
Qed.

(** ** The properties on the sample units *)

Lemma ready_defers_to_unready_ceph_witness :
  has_ceph_relation charm_ceph_waiting = true
  ∧ ready (R:=unit)
      (with_local_repository [images_volume; images_volume] charm_ceph_waiting)
      unit_fresh
    = (Normal false, unit_fresh,
       [Debug "ceph relation is connected, deferring to parent"])
  ∧ configure_charm (R:=unit) render_sample inherited_sample
      (with_local_repository [images_volume] charm_ceph_waiting)
      ConfigChanged unit_fresh
    = (Normal (), unit_fresh, [Debug "Ceph key is not yet present, waiting."]).
Proof.
  destruct (ready_defers_to_unready_ceph render_sample inherited_sample
              charm_ceph_waiting unit_fresh eq_refl) as [H1 H2].
  split; [reflexivity|].
  split; [apply (H1 eq_refl) | apply (H2 eq_refl)].
Defined.

Lemma ready_with_ceph_uses_relation_key_witness :
  has_ceph_relation charm_ceph_ready = true
  ∧ parent_ready charm_ceph_ready = true
  ∧ ready (R:=unit) (with_local_repository [] charm_ceph_ready) unit_fresh
    = (Normal true, unit_fresh,
       [Debug "ceph relation is connected, deferring to parent"])
  ∧ Execute
      ["ceph-authtool"; "/etc/ceph/ceph.client.glance.keyring";
       "--create-keyring"; "--name=client.glance";
       "--add-key=AQCvCbtToC6MDhAATtuT70Sl"] true
    ∈ trace_of (configure_charm (R:=unit) render_sample inherited_sample
                  (with_local_repository [images_volume] charm_ceph_ready)
                  ConfigChanged unit_fresh).
Proof.
  destruct (ready_with_ceph_uses_relation_key render_sample inherited_sample
              charm_ceph_ready unit_fresh eq_refl eq_refl) as [H1 H2].
  split; [reflexivity|]. split; [reflexivity|]. split; [apply H1|].
  apply (H2 "AQCvCbtToC6MDhAATtuT70Sl" [images_volume] ConfigChanged);
    [reflexivity | discriminate | reflexivity | reflexivity
    | intros cmd _; reflexivity].
Defined.

Lemma ready_without_ceph_iff_local_storage_witness :
  has_ceph_relation charm_local = false
  ∧ ready (R:=unit) charm_local unit_fresh
    = (Normal true, unit_fresh, [Debug "Storage local-repository is attached"])
  ∧ ready (R:=unit) charm_bare unit_fresh
    = (Normal false, unit_fresh,
       [Debug
          "Ceph relation does not exist and no local storage is available."]).
Proof.
  split; [reflexivity|]. split.
  - destruct (ready_without_ceph_iff_local_storage charm_local unit_fresh
                eq_refl) as (_ & H & _).
    apply H. simpl. lia.
  - destruct (ready_without_ceph_iff_local_storage charm_bare unit_fresh
                eq_refl) as (_ & _ & H).
    apply H. reflexivity.
Defined.

Lemma context_exports_by_backend_witness :
  context charm_ceph_ready = parent_context charm_ceph_ready
  ∧ context charm_local = ∅
  ∧ (context charm_ceph_ready ≠ ∅ ∧ has_ceph_relation charm_ceph_ready = true).
Proof.
  assert (Hne : context charm_ceph_ready ≠ ∅) by apply insert_non_empty.
  split; [|split; [|split; [exact Hne|]]].
  - destruct (context_exports_by_backend charm_ceph_ready) as (H & _ & _).
    apply H. reflexivity.
  - destruct (context_exports_by_backend charm_local) as (_ & H & _).
    apply H. reflexivity.
  - destruct (context_exports_by_backend charm_ceph_ready) as (_ & _ & H).
    apply H. exact Hne.
Defined.

Lemma ceph_provisioning_commands_witness :
  actions
    (trace_of (configure_charm (R:=unit) render_sample inherited_sample
                 charm_ceph_ready ConfigChanged unit_fresh))
  = [ Execute ["apt"; "update"] true;
      Execute ["apt"; "install"; "-y"; "ceph-common"] true;
      Execute
        ["ceph-authtool"; "/etc/ceph/ceph.client.glance.keyring";
         "--create-keyring"; "--name=client.glance";
         "--add-key=AQCvCbtToC6MDhAATtuT70Sl"] true;
      InitService (contexts charm_ceph_ready);
      SuperConfigureCharm ConfigChanged;
      StartService "glance-api" ]
  ∧ (outcome_of (configure_charm (R:=unit) render_sample inherited_sample
                   charm_ceph_install_fails ConfigChanged unit_fresh)
     = Raised (ExecError ["apt"; "install"; "-y"; "ceph-common"] 100)
     ∧ actions
         (trace_of (configure_charm (R:=unit) render_sample inherited_sample
                      charm_ceph_install_fails ConfigChanged unit_fresh))
       = [ Execute ["apt"; "update"] true;
           Execute ["apt"; "install"; "-y"; "ceph-common"] true ])
  ∧ actions
      (trace_of (configure_charm (R:=unit) render_sample inherited_sample
                   charm_local ConfigChanged unit_fresh))
    = [ InitService (contexts charm_local);
        SuperConfigureCharm ConfigChanged;
        StartService "glance-api" ].
Proof.
  split; [|split].
  - destruct (ceph_provisioning_commands render_sample inherited_sample
                charm_ceph_ready ConfigChanged unit_fresh eq_refl eq_refl)
      as [H _].
    destruct (H "AQCvCbtToC6MDhAATtuT70Sl" eq_refl eq_refl) as [Hok _];
      [discriminate|].
    destruct Hok as (_ & _ & Hact); [intros cmd _; reflexivity|].
    exact Hact.
  - destruct (ceph_provisioning_commands render_sample inherited_sample
                charm_ceph_install_fails ConfigChanged unit_fresh
                eq_refl eq_refl) as [H _].
    destruct (H "AQCvCbtToC6MDhAATtuT70Sl" eq_refl eq_refl) as [_ Hfail];
      [discriminate|].
    destruct (Hfail 1 ["apt"; "install"; "-y"; "ceph-common"] eq_refl)
      as (Hout & _ & Hact).
    + vm_compute. discriminate.
    + intros j cmd' Hj Hcmd. destruct j as [|j]; [|lia].
      injection Hcmd as <-. reflexivity.
    + split; [exact Hout | exact Hact].
  - destruct (ceph_provisioning_commands render_sample inherited_sample
                charm_local ConfigChanged unit_fresh eq_refl eq_refl)
      as [_ H].
    destruct H as (_ & _ & Hact); [reflexivity | simpl; lia |].
    exact Hact.
Defined.

Lemma configure_charm_idempotent_witness :
  let s1 :=
    state_of (configure_charm (R:=unit) render_sample inherited_sample
                charm_ceph_ready (RelationChanged "ceph") unit_fresh) in
  let s2 :=
    state_of (configure_charm (R:=unit) render_sample inherited_sample
                charm_ceph_ready ConfigChanged s1) in
  (∀ ea eb s',
     inherited_sample eb charm_ceph_ready
       (inherited_sample ea charm_ceph_ready s')
     = inherited_sample ea charm_ceph_ready s')
  ∧ (∀ e s' p,
       is_Some (render_sample (contexts charm_ceph_ready) !! p) →
       files (inherited_sample e charm_ceph_ready s') !! p = files s' !! p)
  ∧ unit_status s2 = unit_status s1
  ∧ files s2 = files s1
  ∧ bootstrapped s2 = bootstrapped s1.
Proof.
  intros s1 s2.
  assert (Hidem : ∀ ea eb s',
            inherited_sample eb charm_ceph_ready
              (inherited_sample ea charm_ceph_ready s')
            = inherited_sample ea charm_ceph_ready s')
    by (intros; reflexivity).
  assert (Hkeep : ∀ e s' p,
            is_Some (render_sample (contexts charm_ceph_ready) !! p) →
            files (inherited_sample e charm_ceph_ready s') !! p
            = files s' !! p)
    by (intros; reflexivity).
  split; [exact Hidem|]. split; [exact Hkeep|].
  exact (configure_charm_idempotent render_sample inherited_sample
           charm_ceph_ready (RelationChanged "ceph") ConfigChanged unit_fresh
           Hidem Hkeep).
Defined.

Lemma configure_charm_deferred_is_noop_witness :
  relation_handlers_ready charm_bare_unsettled = false
  ∧ state_of (configure_charm (R:=unit) render_sample inherited_sample
                charm_bare_unsettled ConfigChanged unit_running)
    = unit_running
  ∧ actions
      (trace_of (configure_charm (R:=unit) render_sample inherited_sample
                   charm_bare_unsettled ConfigChanged unit_running))
    = [].
Proof.
  split; [reflexivity|].
  destruct (configure_charm_deferred_is_noop render_sample inherited_sample
              charm_bare_unsettled ConfigChanged unit_running eq_refl)
    as (_ & Hs & Ha & _).
  split; [exact Hs | exact Ha].
Defined.

Lemma bootstrapped_flag_monotonic_witness :
  bootstrapped unit_running = true
  ∧ (∀ s1, bootstrapped s1 = true →
           bootstrapped (inherited_sample UpgradeCharm charm_local s1) = true)
  ∧ bootstrapped
      (state_of (configure_charm (R:=unit) render_sample inherited_sample
                   charm_local UpgradeCharm unit_running))
    = true
  ∧ (StartService "glance-api"
     ∈ trace_of (configure_charm (R:=unit) render_sample inherited_sample
                   charm_local UpgradeCharm unit_fresh)
     ∧ bootstrapped
         (state_of (configure_charm (R:=unit) render_sample inherited_sample
                      charm_local UpgradeCharm unit_fresh))
       = true).
Proof.
  split; [reflexivity|].
  assert (Hmono : ∀ s1, bootstrapped s1 = true →
            bootstrapped (inherited_sample UpgradeCharm charm_local s1) = true)
    by (intros; reflexivity).
  split; [exact Hmono|]. split.
  - destruct (bootstrapped_flag_monotonic render_sample inherited_sample
                charm_local UpgradeCharm unit_running) as (_ & H & _).
    exact (H Hmono eq_refl).
  - assert (Hin : StartService "glance-api"
              ∈ trace_of (configure_charm (R:=unit) render_sample
                            inherited_sample charm_local UpgradeCharm
                            unit_fresh))
      by (vm_compute; repeat constructor).
    split; [exact Hin|].
    destruct (bootstrapped_flag_monotonic render_sample inherited_sample
                charm_local UpgradeCharm unit_fresh) as (_ & _ & H).
    exact (H "glance-api" Hin).
Defined.

Lemma configure_without_pebble_still_configures_witness :
  relation_handlers_ready charm_local_no_pebble = true
  ∧ pebble_ready charm_local_no_pebble = false
  ∧ has_ceph_relation charm_local_no_pebble = false
  ∧ 0 < length (local_repository charm_local_no_pebble)
  ∧ actions
      (trace_of (configure_charm (R:=unit) render_sample inherited_sample
                   charm_local_no_pebble
                   (StorageAttached "local-repository") unit_running))
    = [ SuperConfigureCharm (StorageAttached "local-repository");
        StartService "glance-api" ].
Proof.
  split; [reflexivity|]. split; [reflexivity|]. split; [reflexivity|].
  assert (Hl : 0 < length (local_repository charm_local_no_pebble))
    by (simpl; lia).
  split; [exact Hl|].
  destruct (configure_without_pebble_still_configures render_sample
              inherited_sample charm_local_no_pebble
              (StorageAttached "local-repository")
              unit_running eq_refl eq_refl (or_intror (conj eq_refl Hl)))
    as (_ & _ & Ha).
  exact Ha.
Defined.

(** ** Further properties of [configure_charm] *)

Lemma truthy_Some (o : option string) :
  truthy o = true → ∃ k, o = Some k ∧ k ≠ "".
Proof.
  destruct o as [[|a k]|]; simpl; try discriminate.
  intros _. exists (String a k). split; [reflexivity | discriminate].
Qed.

Section Paths_facts.

Variable render : list (string * gmap string string) → gmap string string.
Variable inherited : Hook → Charm → State → State.

Local Abbreviation configure := (configure_charm (R:=unit) render inherited).
Local Abbreviation path := (configure_path render inherited).

(** Every call of [configure_charm] goes one of the ways of
    [configure_path]. *)
Lemma configure_charm_path c event s :
  path c event s (configure c event s).
Proof.
  destruct (relation_handlers_ready c) eqn:Hr;
    [|rewrite configure_deferred by assumption; by constructor].
  destruct (has_ceph_relation c) eqn:Hceph.
  - destruct (truthy (key c)) eqn:Hk;
      [|rewrite configure_waits_for_key by assumption; by constructor].
    destruct (truthy_Some _ Hk) as (k & Hkey & Hne).
    destruct (pebble_ready c) eqn:Hpb;
      [|rewrite configure_networked_no_pebble by assumption;
        by eapply path_ceph_no_pebble].
    destruct (decide (exit_code c ["apt"; "update"] = 0%Z)) as [H0|H0].
    2:{ rewrite (configure_networked_fail _ _ c event s k 0 ["apt"; "update"])
          by first [assumption | reflexivity | intros; lia].
        by eapply (path_ceph_failed _ _ c event s k 0). }
    destruct (decide (exit_code c ["apt"; "install"; "-y"; "ceph-common"]
                      = 0%Z)) as [H1|H1].
    2:{ rewrite (configure_networked_fail _ _ c event s k 1
                   ["apt"; "install"; "-y"; "ceph-common"])
          by first [ assumption | reflexivity
                   | intros [|j] cmd' Hj Hc; [by injection Hc as <- | lia] ].
        by eapply (path_ceph_failed _ _ c event s k 1). }
    destruct (decide (exit_code c
                        ["ceph-authtool";
                         "/etc/ceph/ceph.client." +:+ app_name c +:+ ".keyring";
                         "--create-keyring";
                         "--name=client." +:+ app_name c;
                         "--add-key=" +:+ k] = 0%Z)) as [H2|H2].
    2:{ rewrite (configure_networked_fail _ _ c event s k 2
                   ["ceph-authtool";
                    "/etc/ceph/ceph.client." +:+ app_name c +:+ ".keyring";
                    "--create-keyring";
                    "--name=client." +:+ app_name c;
                    "--add-key=" +:+ k])
          by first [ assumption | reflexivity
                   | intros [|[|j]] cmd' Hj Hc;
                     [by injection Hc as <- | by injection Hc as <- | lia] ].
        by eapply (path_ceph_failed _ _ c event s k 2). }
    assert (Hall : ∀ cmd, cmd ∈ ceph_commands (app_name c) k →
                          exit_code c cmd = 0%Z).
    { intros cmd Hin. unfold ceph_commands in Hin.
      repeat (apply elem_of_cons in Hin as [->|Hin]; [assumption|]).
      by apply elem_of_nil in Hin. }
    rewrite (configure_networked_ok _ _ c event s k) by assumption.
    by eapply path_ceph_ok.
  - destruct (has_local_storage c) eqn:Hl.
    + rewrite configure_local by assumption. by eapply path_local.
    + rewrite configure_blocked by assumption. by constructor.
Qed.

Ltac split_in H :=
  repeat first
    [ apply elem_of_nil in H; contradiction
    | apply elem_of_cons in H as [H|H]
    | apply elem_of_app in H as [H|H]
    | apply list_elem_of_fmap in H as (? & H & ?) ].

Ltac by_path c event s :=
  let P := fresh "P" in
  let r := fresh "r" in
  let Er := fresh "Er" in
  pose proof (configure_charm_path c event s) as P;
  remember (configure c event s) as r eqn:Er;
  clear Er; destruct P;
  try match goal with
    | H : ceph_commands _ _ !! ?i = Some _ |- _ =>
        unfold ceph_commands in H;
        destruct i as [|[|[|?]]]; simpl in H; try discriminate H;
        injection H as <-
    end;
  unfold outcome_of, state_of, trace_of, started in *; simpl in *.

(** X1. A command is run in the container only on the ceph path: the
    relation handlers are ready, the container is up, the ceph relation is
    there with a non-empty key, the command is one of the three of lines
    212-225 built from that key, and it is run with
    [exception_on_error=True]. *)
Theorem commands_need_ceph_key (c : Charm) (event : Hook) (s : State)
    (cmd : list string) (b : bool) :
  Execute cmd b ∈ trace_of (configure c event s) →
  b = true
  ∧ relation_handlers_ready c = true
  ∧ pebble_ready c = true
  ∧ has_ceph_relation c = true
  ∧ ∃ k, key c = Some k ∧ k ≠ "" ∧ cmd ∈ ceph_commands (app_name c) k.
Proof.
  intros Hin. by_path c event s;
    try destruct (pebble_ready c) eqn:Hpb;
    try destruct (bootstrapped _);
    simpl in Hin; split_in Hin; try discriminate;
    injection Hin as -> ->; repeat split; try done;
    exists k; repeat split; try done;
    unfold ceph_commands; by repeat constructor.
Qed.

(** X2. The configuration is rendered only for a unit whose storage is
    settled: the relation handlers are ready, the container is up, and there
    is either a ceph relation with its key or, without ceph relation, local
    storage. What is rendered is [self.contexts()], no command has failed,
    and the inherited handler runs right on the rendered unit. *)
Theorem rendering_needs_storage (c : Charm) (event : Hook) (s : State)
    (ctxs : list (string * gmap string string)) :
  InitService ctxs ∈ trace_of (configure c event s) →
  ctxs = contexts c
  ∧ relation_handlers_ready c = true
  ∧ pebble_ready c = true
  ∧ (if has_ceph_relation c
     then truthy (key c) = true
     else 0 < length (local_repository c))
  ∧ outcome_of (configure c event s) = Normal ()
  ∧ state_of (configure c event s)
    = inherited event c (rendered render (contexts c) s)
  ∧ SuperConfigureCharm event ∈ trace_of (configure c event s).
Proof.
  intros Hin. by_path c event s;
    try destruct (pebble_ready c) eqn:Hpb;
    try destruct (bootstrapped _) eqn:Hb;
    simpl in Hin; split_in Hin; try discriminate;
    injection Hin as ->; subst;
    repeat match goal with
      | H : has_ceph_relation c = _ |- _ => rewrite H
      | H : key c = Some _ |- _ => rewrite H
      end;
    repeat split; try done;
    try (by apply truthy_of_Some);
    try (by apply has_local_storage_true);
    by repeat constructor.
Qed.

(** X6. A call that does not get as far as the inherited handler has left
    the files and the bootstrapped flag alone, and the status too unless it
    has set it to the [Missing storage] message. *)
Theorem stopping_early_writes_little (c : Charm) (event : Hook) (s : State) :
  SuperConfigureCharm event ∉ trace_of (configure c event s) →
  files (state_of (configure c event s)) = files s
  ∧ bootstrapped (state_of (configure c event s)) = bootstrapped s
  ∧ (unit_status (state_of (configure c event s)) = unit_status s
     ∨ unit_status (state_of (configure c event s))
       = BlockedStatus
           "Missing storage. Relate to Ceph or add local storage to continue.").
Proof.
  intros Hnot. by_path c event s; eauto;
    exfalso; apply Hnot;
    try destruct (pebble_ready c);
    simpl; by repeat constructor.
Qed.

(** X7. Within one call the calls on the collaborators come in a fixed
    order: log records, commands and the rendering first; then, at most
    once, the inherited handler; and only after it, if the unit is
    bootstrapped by then, [start_service] on every pebble handler, once each
    and in the order of [self.pebble_handlers]. *)
Theorem inherited_once_then_start (c : Charm) (event : Hook) (s : State) :
  ∃ pre,
    Forall (λ e, is_provisioning e = true) pre
    ∧ (trace_of (configure c event s) = pre
       ∨ trace_of (configure c event s)
         = pre ++ SuperConfigureCharm event
           :: (if bootstrapped (state_of (configure c event s))
               then map StartService (pebble_handlers c)
               else [])).
Proof.
  by_path c event s.
  - eexists. split; [|left; reflexivity]. by repeat constructor.
  - eexists. split; [|left; reflexivity]. by repeat constructor.
  - eexists. split; [|left; reflexivity]. by repeat constructor.
  - exists (Debug "Local storage is configured, using that."
            :: (if pebble_ready c
                then [Debug "Using local storage"; InitService (contexts c)]
                else [])).
    split; [destruct (pebble_ready c); by repeat constructor|].
    right. subst. reflexivity.
  - exists []. split; [constructor|]. right. subst. reflexivity.
  - eexists (Debug "Setting up Ceph packages in images."
             :: map (λ cmd, Execute cmd true) (ceph_commands (app_name c) k)
             ++ [InitService (contexts c)]).
    split; [unfold ceph_commands; simpl; by repeat constructor|].
    right. subst. unfold ceph_commands. reflexivity.
  - eexists. split; [|left; reflexivity]. by repeat constructor.
  - eexists. split; [|left; reflexivity]. by repeat constructor.
  - eexists. split; [|left; reflexivity]. by repeat constructor.
Qed.

(** X10. Without a ceph relation and with the relation handlers ready,
    [configure_charm] decides as the handler's [ready] does: it goes on to the
    inherited handler exactly when [ready] is [True], and blocks the unit
    exactly when [ready] is [False]. *)
Theorem configure_follows_ready_without_ceph
    (c : Charm) (event : Hook) (s : State) :
  has_ceph_relation c = false →
  relation_handlers_ready c = true →
  (outcome_of (ready (R:=unit) c s) = Normal true
   ↔ SuperConfigureCharm event ∈ trace_of (configure c event s))
  ∧ (outcome_of (ready (R:=unit) c s) = Normal false
     ↔ configure c event s
       = (Normal (), blocked s,
          [Debug "Neither local storage nor ceph relation exists."])).
Proof.
  intros Hceph Hr. destruct (has_local_storage c) eqn:Hl.
  - rewrite ready_with_local_storage, configure_local by assumption.
    unfold outcome_of, trace_of. simpl. split; split; try discriminate.
    + intros _. destruct (pebble_ready c); simpl; by repeat constructor.
    + done.
  - rewrite ready_without_backend, configure_blocked by assumption.
    unfold outcome_of, trace_of, blocked. simpl.
    split; split; try discriminate; try done.
    intros Hin. split_in Hin; discriminate.
Qed.

(** X11. The [Missing storage] branch is entered only when
    [relation_handlers_ready()] has answered [True] for a unit whose storage
    handler, registered by [get_relation_handlers], is itself not [ready]. *)
Theorem blocked_only_past_an_unready_handler
    (c : Charm) (event : Hook) (s : State) :
  Debug "Neither local storage nor ceph relation exists."
    ∈ trace_of (configure c event s) →
  relation_handlers_ready c = true
  ∧ outcome_of (ready (R:=unit) c s) = Normal false
  ∧ state_of (configure c event s) = blocked s.
Proof.
  intros Hin.
  assert (H : relation_handlers_ready c = true
              ∧ has_ceph_relation c = false
              ∧ has_local_storage c = false
              ∧ state_of (configure c event s) = blocked s).
  { by_path c event s;
      try destruct (pebble_ready c) eqn:Hpb;
      try destruct (bootstrapped _) eqn:Hb;
      simpl in Hin; split_in Hin; try discriminate; done. }
  destruct H as (Hr & Hceph & Hl & Hs).
  rewrite ready_without_backend by assumption. done.
Qed.


End Paths_facts.

(** ** Further properties of the handler and of the charm's lists *)

(** X8. Attaching storage never makes the handler less ready: if [ready] is
    [True], it is still [True] with any set of volumes at least as large. *)
Theorem more_storage_keeps_ready (c : Charm) (s : State) (ss : list Storage) :
  outcome_of (ready (R:=unit) c s) = Normal true →
  length (local_repository c) ≤ length ss →
  outcome_of (ready (R:=unit) (with_local_repository ss c) s) = Normal true.
Proof.
  intros Hready Hlen. destruct (has_ceph_relation c) eqn:Hceph.
  - rewrite ready_with_ceph in Hready by assumption.
    rewrite ready_with_ceph by assumption. exact Hready.
  - destruct (has_local_storage c) eqn:Hl.
    + rewrite ready_with_local_storage; [reflexivity | assumption |].
      apply has_local_storage_true in Hl. apply has_local_storage_true.
      simpl. lia.
    + rewrite ready_without_backend in Hready by assumption. discriminate.
Qed.

Lemma config_contexts_value {R} (inh : list ConfigContext) (c : Charm)
    (s : State) :
  outcome_of (config_contexts (R:=R) inh c s)
  = Normal
      (inh ++ if has_ceph_relation c
              then [ {| context_class := "CephConfigurationContext";
                        context_namespace := "ceph_config" |};
                     {| context_class := "CinderCephConfigurationContext";
                        context_namespace := "cinder_ceph" |} ]
              else []).
Proof.
  unfold config_contexts, call, config_contexts_body, outcome_of.
  destruct (has_ceph_relation c); simpl.
  - by rewrite <- app_assoc.
  - by rewrite app_nil_r.
Qed.

(** X12. What the charm adds for ceph goes together. Provided the base
    class lists neither a context named [ceph_config] nor a file at
    [/etc/ceph/ceph.conf] itself, the [ceph_config] context is among
    [config_contexts] exactly when [/etc/ceph/ceph.conf] is among
    [container_configs], and that is exactly when the ceph relation exists;
    and whenever the handler's [context()] is not empty, both are there. *)
Theorem ceph_material_goes_together
    (inherited_contexts : list ConfigContext)
    (inherited_configs : list ContainerConfigFile)
    (c : Charm) (s : State) (ctxs : list ConfigContext) :
  (∀ x, x ∈ inherited_contexts → context_namespace x ≠ "ceph_config") →
  (∀ f, f ∈ inherited_configs → config_path f ≠ ceph_conf) →
  outcome_of (config_contexts (R:=unit) inherited_contexts c s) = Normal ctxs →
  let paths := map config_path (container_configs inherited_configs c) in
  ("ceph_config" ∈ map context_namespace ctxs ↔ ceph_conf ∈ paths)
  ∧ (ceph_conf ∈ paths ↔ has_ceph_relation c = true)
  ∧ (context c ≠ ∅ → ceph_conf ∈ paths).
Proof.
  intros Hctx Hfiles Hout paths. subst paths.
  rewrite config_contexts_value in Hout. injection Hout as <-.
  assert (Hno1 : "ceph_config" ∉ map context_namespace inherited_contexts).
  { intros Hin. apply list_elem_of_fmap in Hin as (x & Hx & Hin).
    by apply (Hctx x). }
  assert (Hno2 : ceph_conf ∉ map config_path inherited_configs).
  { intros Hin. apply list_elem_of_fmap in Hin as (f & Hf & Hin).
    by apply (Hfiles f). }
  unfold container_configs, context.
  destruct (has_ceph_relation c); rewrite ?map_app, ?app_nil_r; simpl.
  - assert (H1 : "ceph_config"
                 ∈ map context_namespace inherited_contexts
                   ++ ["ceph_config"; "cinder_ceph"])
      by (apply elem_of_app; right; by repeat constructor).
    assert (H2 : ceph_conf ∈ map config_path inherited_configs ++ [ceph_conf])
      by (apply elem_of_app; right; by repeat constructor).
    repeat split; done.
  - repeat split; try done; intros H; by exfalso.
Qed.

(** ** The further properties on the sample units *)

Lemma commands_need_ceph_key_witness :
  Execute ["apt"; "install"; "-y"; "ceph-common"] true
    ∈ trace_of (configure_charm (R:=unit) render_sample inherited_sample
                  charm_ceph_ready ConfigChanged unit_fresh)
  ∧ ∃ k, key charm_ceph_ready = Some k ∧ k ≠ ""
         ∧ ["apt"; "install"; "-y"; "ceph-common"]
           ∈ ceph_commands (app_name charm_ceph_ready) k.
Proof.
  assert (Hin : Execute ["apt"; "install"; "-y"; "ceph-common"] true
                ∈ trace_of (configure_charm (R:=unit) render_sample
                              inherited_sample charm_ceph_ready ConfigChanged
                              unit_fresh))
    by (vm_compute; repeat constructor).
  split; [exact Hin|].
  destruct (commands_need_ceph_key render_sample inherited_sample
              charm_ceph_ready ConfigChanged unit_fresh _ _ Hin)
    as (_ & _ & _ & _ & H).
  exact H.
Defined.

Lemma rendering_needs_storage_witness :
  InitService (contexts charm_local)
    ∈ trace_of (configure_charm (R:=unit) render_sample inherited_sample
                  charm_local ConfigChanged unit_fresh)
  ∧ 0 < length (local_repository charm_local)
  ∧ SuperConfigureCharm ConfigChanged
    ∈ trace_of (configure_charm (R:=unit) render_sample inherited_sample
                  charm_local ConfigChanged unit_fresh).
Proof.
  assert (Hin : InitService (contexts charm_local)
                ∈ trace_of (configure_charm (R:=unit) render_sample
                              inherited_sample charm_local ConfigChanged
                              unit_fresh))
    by (vm_compute; repeat constructor).
  split; [exact Hin|].
  destruct (rendering_needs_storage render_sample inherited_sample
              charm_local ConfigChanged unit_fresh _ Hin)
    as (_ & _ & _ & Hl & _ & _ & Hs).
  split; [exact Hl | exact Hs].
Defined.

Lemma stopping_early_writes_little_witness :
  (SuperConfigureCharm ConfigChanged
     ∉ trace_of (configure_charm (R:=unit) render_sample inherited_sample
                   charm_bare ConfigChanged unit_running))
  ∧ files (state_of (configure_charm (R:=unit) render_sample inherited_sample
                       charm_bare ConfigChanged unit_running))
    = files unit_running
  ∧ bootstrapped
      (state_of (configure_charm (R:=unit) render_sample inherited_sample
                   charm_bare ConfigChanged unit_running))
    = true.
Proof.
  assert (Hnot : SuperConfigureCharm ConfigChanged
                 ∉ trace_of (configure_charm (R:=unit) render_sample
                               inherited_sample charm_bare ConfigChanged
                               unit_running)).
  { intros Hin. vm_compute in Hin.
    apply list_elem_of_singleton in Hin. discriminate. }
  split; [exact Hnot|].
  destruct (stopping_early_writes_little render_sample inherited_sample
              charm_bare ConfigChanged unit_running Hnot) as (Hf & Hb & _).
  split; [exact Hf | exact Hb].
Defined.

Lemma configure_follows_ready_without_ceph_witness :
  has_ceph_relation charm_local = false
  ∧ relation_handlers_ready charm_local = true
  ∧ outcome_of (ready (R:=unit) charm_local unit_fresh) = Normal true
  ∧ SuperConfigureCharm ConfigChanged
    ∈ trace_of (configure_charm (R:=unit) render_sample inherited_sample
                  charm_local ConfigChanged unit_fresh).
Proof.
  do 3 (split; [reflexivity|]).
  destruct (configure_follows_ready_without_ceph render_sample
              inherited_sample charm_local ConfigChanged unit_fresh
              eq_refl eq_refl) as [[H _] _].
  apply H. reflexivity.
Defined.

Lemma blocked_only_past_an_unready_handler_witness :
  Debug "Neither local storage nor ceph relation exists."
    ∈ trace_of (configure_charm (R:=unit) render_sample inherited_sample
                  charm_bare ConfigChanged unit_fresh)
  ∧ relation_handlers_ready charm_bare = true
  ∧ outcome_of (ready (R:=unit) charm_bare unit_fresh) = Normal false.
Proof.
  assert (Hin : Debug "Neither local storage nor ceph relation exists."
                ∈ trace_of (configure_charm (R:=unit) render_sample
                              inherited_sample charm_bare ConfigChanged
                              unit_fresh))
    by (vm_compute; repeat constructor).
  split; [exact Hin|].
  destruct (blocked_only_past_an_unready_handler render_sample
              inherited_sample charm_bare ConfigChanged unit_fresh Hin)
    as (Hr & Hready & _).
  split; [exact Hr | exact Hready].
Defined.

Lemma more_storage_keeps_ready_witness :
  outcome_of (ready (R:=unit) charm_local unit_fresh) = Normal true
  ∧ outcome_of
      (ready (R:=unit)
         (with_local_repository [images_volume; images_volume] charm_local)
         unit_fresh)
    = Normal true.
Proof.
  split; [reflexivity|].
  apply (more_storage_keeps_ready charm_local unit_fresh
           [images_volume; images_volume]); [reflexivity | simpl; lia].
Defined.

Lemma ceph_material_goes_together_witness :
  "ceph_config"
    ∈ map context_namespace
        (base_contexts
         ++ [ {| context_class := "CephConfigurationContext";
                 context_namespace := "ceph_config" |};
              {| context_class := "CinderCephConfigurationContext";
                 context_namespace := "cinder_ceph" |} ])
  ∧ ceph_conf
    ∈ map config_path (container_configs base_configs charm_ceph_ready).
Proof.
  assert (Hin : "ceph_config"
                ∈ map context_namespace
                    (base_contexts
                     ++ [ {| context_class := "CephConfigurationContext";
                             context_namespace := "ceph_config" |};
                          {| context_class := "CinderCephConfigurationContext";
                             context_namespace := "cinder_ceph" |} ]))
    by (simpl; repeat constructor).
  split; [exact Hin|].
  destruct (ceph_material_goes_together base_contexts base_configs
              charm_ceph_ready unit_fresh
              (base_contexts
               ++ [ {| context_class := "CephConfigurationContext";
                       context_namespace := "ceph_config" |};
                    {| context_class := "CinderCephConfigurationContext";
                       context_namespace := "cinder_ceph" |} ]))
    as (H & _ & _).
  - intros x Hx. apply list_elem_of_singleton in Hx as ->. discriminate.
  - intros f Hf. apply list_elem_of_singleton in Hf as ->. discriminate.
  - reflexivity.
  - apply H. exact Hin.
Defined.

(** ** The unit without storage *)

Lemma all_handlers_ready_needs_storage_handler base_ready inh c s :
  all_handlers_ready base_ready inh c s = true →
  outcome_of (ready (R:=unit) c s) = Normal true.
Proof.
  unfold all_handlers_ready. simpl. rewrite forallb_app. simpl.
  intros H. apply andb_true_iff in H as [_ H].
  destruct (outcome_of (ready c s)) as [[|]| |]; simpl in H;
    first [reflexivity | discriminate].
Qed.

(** C2. What the code does where it is meant to block. The unit has
    neither a ceph relation nor local storage, and
    [relation_handlers_ready()] answers for the handlers that
    [get_relation_handlers] registers, the storage handler among them.
    That handler is not ready here, so the answer is [False] and the call
    returns at lines 191-193: the status is left as it was, and the branch
    of lines 201-206, which would set the [Missing storage] status, is not
    reached. *)
Theorem missing_storage_is_deferred_not_blocked
    (render : list (string * gmap string string) → gmap string string)
    (inherited : Hook → Charm → State → State)
    (base_ready : string → bool) (inherited_handlers : list RelationHandler)
    (c : Charm) (event : Hook) (s : State) :
  relation_handlers_ready c
  = all_handlers_ready base_ready inherited_handlers c s →
  has_ceph_relation c = false →
  length (local_repository c) = 0 →
  let r := configure_charm (R:=unit) render inherited c event s in
  relation_handlers_ready c = false
  ∧ r = (Normal (), s,
         [Debug "Deferring configuration, charm relations not ready"])
  ∧ unit_status (state_of r) = unit_status s
  ∧ (Debug "Neither local storage nor ceph relation exists." ∉ trace_of r).
Proof.
  intros Hguard Hceph Hlen r. subst r.
  assert (Hr : relation_handlers_ready c = false).
  { destruct (relation_handlers_ready c) eqn:E; [|reflexivity].
    symmetry in Hguard.
    apply all_handlers_ready_needs_storage_handler in Hguard.
    rewrite ready_without_backend in Hguard
      by (try assumption; by apply has_local_storage_false).
    discriminate. }
  rewrite configure_deferred by exact Hr.
  split; [exact Hr|]. split; [reflexivity|]. split; [reflexivity|].
  unfold trace_of. simpl. intros Hin.
  apply list_elem_of_singleton in Hin. discriminate.
Qed.

Lemma missing_storage_is_deferred_not_blocked_witness :
  relation_handlers_ready charm_bare_unsettled
  = all_handlers_ready base_handlers_ready base_handlers
      charm_bare_unsettled unit_fresh
  ∧ has_ceph_relation charm_bare_unsettled = false
  ∧ length (local_repository charm_bare_unsettled) = 0
  ∧ unit_status
      (state_of (configure_charm (R:=unit) render_sample inherited_sample
                   charm_bare_unsettled ConfigChanged unit_fresh))
    = MaintenanceStatus "installing charm software".
Proof.
  do 3 (split; [reflexivity|]).
  destruct (missing_storage_is_deferred_not_blocked render_sample
              inherited_sample base_handlers_ready base_handlers
              charm_bare_unsettled ConfigChanged unit_fresh
              eq_refl eq_refl eq_refl) as (_ & _ & H & _).
  exact H.
Defined.
